(** * Close-approach filters, limiter and writers: a shallow embedding

    The development follows [filters.py] and [write.py].  Python objects
    that reach the filters are embedded as a small universe of values
    ([pyobj]); exceptions are an explicit [result]; iterators are state
    machines; the CSV text and the JSON document are built as data. *)

From Stdlib Require Import ZArith List String Ascii Bool Lia.
From Stdlib Require Import Floats.SpecFloat.
Import ListNotations.

Local Open Scope string_scope.
Local Open Scope list_scope.
Local Open Scope Z_scope.

(* ===================================================================== *)
(** ** Exceptions *)

Inductive exn : Type :=
| UnsupportedCriterionError   (* class UnsupportedCriterionError(NotImplementedError) *)
| TypeError                   (* ordering two objects of unrelated types *)
| ValueError.                 (* an argument out of the range a callee accepts *)

Inductive result (A : Type) : Type :=
| Ok (a : A)
| Raise (e : exn).

Arguments Ok {A} a.
Arguments Raise {A} e.

Definition bind {A B : Type} (c : result A) (k : A -> result B) : result B :=
  match c with
  | Ok a => k a
  | Raise e => Raise e
  end.

Notation "x <- c ;; k" := (bind c (fun x => k))
  (at level 61, c at next level, right associativity).

(* ===================================================================== *)
(** ** Python values *)

(** [datetime.date] and [datetime.datetime]; [dt_date] is the method
    [datetime.date()]. *)
Record date : Type := mkDate { year : Z; month : Z; day : Z }.

Record datetime : Type := mkDatetime
  { dt_date : date; hour : Z; minute : Z; second : Z }.

(** The objects that options and attributes range over: [None], [bool],
    [int], [float] (IEEE 754 binary64, as [spec_float]) and [date]. *)
Inductive pyobj : Type :=
| VNone
| VBool (b : bool)
| VInt (z : Z)
| VFloat (f : spec_float)
| VDate (d : date).

(** Truth value of an object, as tested by [if x:]. *)
Definition truthy (v : pyobj) : bool :=
  match v with
  | VNone => false
  | VBool b => b
  | VInt z => negb (z =? 0)
  | VFloat (S754_zero _) => false
  | VFloat _ => true
  | VDate _ => true
  end.

(** [x is not None]. *)
Definition is_not_None (v : pyobj) : bool :=
  match v with
  | VNone => false
  | _ => true
  end.

(** *** Exact numeric comparison

    Python compares [bool], [int] and [float] by mathematical value.  A
    number is a NaN, an infinity, or a dyadic rational [m * 2 ^ e]. *)
Inductive number : Type :=
| NaN
| NegInf
| PosInf
| Dyadic (m e : Z).

Definition number_of_float (f : spec_float) : number :=
  match f with
  | S754_zero _ => Dyadic 0 0
  | S754_infinity s => if s then NegInf else PosInf
  | S754_nan => NaN
  | S754_finite s m e => Dyadic (if s then Z.neg m else Z.pos m) e
  end.

Definition as_number (v : pyobj) : option number :=
  match v with
  | VBool b => Some (Dyadic (Z.b2z b) 0)
  | VInt z => Some (Dyadic z 0)
  | VFloat f => Some (number_of_float f)
  | _ => None
  end.

Definition number_compare (x y : number) : option comparison :=
  match x, y with
  | NaN, _ | _, NaN => None
  | NegInf, NegInf => Some Eq
  | NegInf, _ => Some Lt
  | _, NegInf => Some Gt
  | PosInf, PosInf => Some Eq
  | PosInf, _ => Some Gt
  | _, PosInf => Some Lt
  | Dyadic m1 e1, Dyadic m2 e2 =>
      let e := Z.min e1 e2 in
      Some (m1 * 2 ^ (e1 - e) ?= m2 * 2 ^ (e2 - e))
  end.

Definition date_compare (d1 d2 : date) : comparison :=
  match year d1 ?= year d2 with
  | Eq => match month d1 ?= month d2 with
          | Eq => day d1 ?= day d2
          | c => c
          end
  | c => c
  end.

(** How two objects stand to each other under rich comparison. *)
Inductive ordering : Type :=
| Incomparable            (* unrelated types: ordering raises TypeError *)
| Unordered               (* a NaN is involved: every ordering test is False *)
| Ordered (c : comparison).

Definition order (a b : pyobj) : ordering :=
  match a, b with
  | VDate d1, VDate d2 => Ordered (date_compare d1 d2)
  | _, _ =>
      match as_number a, as_number b with
      | Some x, Some y =>
          match number_compare x y with
          | Some c => Ordered c
          | None => Unordered
          end
      | _, _ => Incomparable
      end
  end.

(** The comparators of the [operator] module. *)
Module operator.

Definition eq (a b : pyobj) : result bool :=
  match a, b with
  | VNone, VNone => Ok true
  | _, _ =>
      match order a b with
      | Ordered Eq => Ok true
      | _ => Ok false
      end
  end.

Definition ge (a b : pyobj) : result bool :=
  match order a b with
  | Incomparable => Raise TypeError
  | Unordered => Ok false
  | Ordered Lt => Ok false
  | Ordered _ => Ok true
  end.

Definition le (a b : pyobj) : result bool :=
  match order a b with
  | Incomparable => Raise TypeError
  | Unordered => Ok false
  | Ordered Gt => Ok false
  | Ordered _ => Ok true
  end.

End operator.

(* ===================================================================== *)
(** ** Records *)

(** Modelled from the spec: the classes [NearEarthObject] and
    [CloseApproach] of the project's [models] module are not part of the
    sources at hand; the fields are those of the Subject and the Record of
    the data model (a Subject has a designation, an optional name, a
    diameter and a hazard flag; a Record has a timestamp, a distance, a
    velocity, a designation and exactly one Subject). *)
Module NearEarthObject.
Record t : Type := make
  { designation : string;
    name : option string;
    diameter : spec_float;
    hazardous : bool }.
End NearEarthObject.

Module CloseApproach.
Record t : Type := make
  { time : datetime;
    distance : spec_float;
    velocity : spec_float;
    designation : string;
    neo : NearEarthObject.t }.
End CloseApproach.

(* ===================================================================== *)
(** ** filters.py: attribute filters *)

(** The class of a filter object; it selects the [get] classmethod. *)
Inductive class : Type :=
| AttributeFilter_cls
| HazardousFilter_cls
| DateFilter_cls
| StartDateFilter_cls
| EndDateFilter_cls
| MinDistanceFilter_cls
| MaxDistanceFilter_cls
| MinVelocityFilter_cls
| MaxVelocityFilter_cls
| MinDiameterFilter_cls
| MaxDiameterFilter_cls.

(** An instance: its class and the attributes set by [__init__]. *)
Record filter : Type := mkFilter
  { cls : class;
    op : pyobj -> pyobj -> result bool;
    value : pyobj }.

(** [AttributeFilter.__init__(self, op, value)]. *)
Definition AttributeFilter (op : pyobj -> pyobj -> result bool) (value : pyobj) : filter :=
  mkFilter AttributeFilter_cls op value.

(** The subclasses call [super().__init__] with a fixed comparator. *)
Definition HazardousFilter (hazardous : pyobj) : filter :=
  mkFilter HazardousFilter_cls operator.eq hazardous.

Definition DateFilter (date : pyobj) : filter :=
  mkFilter DateFilter_cls operator.eq date.

Definition StartDateFilter (date : pyobj) : filter :=
  mkFilter StartDateFilter_cls operator.ge date.

Definition EndDateFilter (date : pyobj) : filter :=
  mkFilter EndDateFilter_cls operator.le date.

Definition MinDistanceFilter (val : pyobj) : filter :=
  mkFilter MinDistanceFilter_cls operator.ge val.

Definition MaxDistanceFilter (val : pyobj) : filter :=
  mkFilter MaxDistanceFilter_cls operator.le val.

Definition MinVelocityFilter (val : pyobj) : filter :=
  mkFilter MinVelocityFilter_cls operator.ge val.

Definition MaxVelocityFilter (val : pyobj) : filter :=
  mkFilter MaxVelocityFilter_cls operator.le val.

Definition MinDiameterFilter (val : pyobj) : filter :=
  mkFilter MinDiameterFilter_cls operator.ge val.

Definition MaxDiameterFilter (val : pyobj) : filter :=
  mkFilter MaxDiameterFilter_cls operator.le val.

(** The classmethod [get], resolved on the class of the instance; the
    base class raises. *)
Definition get (c : class) (approach : CloseApproach.t) : result pyobj :=
  match c with
  | AttributeFilter_cls => Raise UnsupportedCriterionError
  | HazardousFilter_cls =>
      Ok (VBool (NearEarthObject.hazardous (CloseApproach.neo approach)))
  | DateFilter_cls => Ok (VDate (dt_date (CloseApproach.time approach)))
  | StartDateFilter_cls => Ok (VDate (dt_date (CloseApproach.time approach)))
  | EndDateFilter_cls => Ok (VDate (dt_date (CloseApproach.time approach)))
  | MinDistanceFilter_cls => Ok (VFloat (CloseApproach.distance approach))
  | MaxDistanceFilter_cls => Ok (VFloat (CloseApproach.distance approach))
  | MinVelocityFilter_cls => Ok (VFloat (CloseApproach.velocity approach))
  | MaxVelocityFilter_cls => Ok (VFloat (CloseApproach.velocity approach))
  | MinDiameterFilter_cls =>
      Ok (VFloat (NearEarthObject.diameter (CloseApproach.neo approach)))
  | MaxDiameterFilter_cls =>
      Ok (VFloat (NearEarthObject.diameter (CloseApproach.neo approach)))
  end.

(** [AttributeFilter.__call__]: [self.op(self.get(approach), self.value)]. *)
Definition call (self : filter) (approach : CloseApproach.t) : result bool :=
  actual <- get (cls self) approach ;;
  op self actual (value self).

(** [create_filters]: every keyword argument defaults to [None]
    ([VNone]); [filters.append(x)] is [filters ++ [x]]. *)
Definition create_filters
    (date start_date end_date
     distance_min distance_max
     velocity_min velocity_max
     diameter_min diameter_max
     hazardous : pyobj) : list filter :=
  let filters : list filter := [] in
  let filters :=
    if truthy date then filters ++ [DateFilter date] else filters in
  let filters :=
    if truthy start_date then filters ++ [StartDateFilter start_date] else filters in
  let filters :=
    if truthy end_date then filters ++ [EndDateFilter end_date] else filters in
  let filters :=
    if truthy distance_min then filters ++ [MinDistanceFilter distance_min] else filters in
  let filters :=
    if truthy distance_max then filters ++ [MaxDistanceFilter distance_max] else filters in
  let filters :=
    if truthy velocity_min then filters ++ [MinVelocityFilter velocity_min] else filters in
  let filters :=
    if truthy velocity_max then filters ++ [MaxVelocityFilter velocity_max] else filters in
  let filters :=
    if truthy diameter_min then filters ++ [MinDiameterFilter diameter_min] else filters in
  let filters :=
    if truthy diameter_max then filters ++ [MaxDiameterFilter diameter_max] else filters in
  let filters :=
    if is_not_None hazardous then filters ++ [HazardousFilter hazardous] else filters in
  filters.

(* ===================================================================== *)
(** ** Iterators and [limit] *)

Section Iterators.

Context {A : Type}.

(** An iterator is a state and a [__next__] step; [None] stands for
    [StopIteration].  The step also returns the state it leaves behind,
    so that an iterator shared between two consumers is modelled by
    passing the state on. *)
Record iterator : Type := mkIterator
  { state : Type;
    current : state;
    step : state -> option A * state }.

(** [next(it)]. *)
Definition next (it : iterator) : option A * iterator :=
  let (x, s) := step it (current it) in
  (x, mkIterator (state it) s (step it)).

(** A consumer that calls [next] at most [fuel] times and stops at the
    first [StopIteration]: the items seen and the iterator left. *)
Fixpoint take (fuel : nat) (it : iterator) : list A * iterator :=
  match fuel with
  | O => ([], it)
  | S fuel' =>
      match next it with
      | (None, it') => ([], it')
      | (Some x, it') =>
          let (xs, it'') := take fuel' it' in (x :: xs, it'')
      end
  end.

(** [list(it)]: runs until [StopIteration]; [None] when [fuel] calls
    were not enough to reach it. *)
Fixpoint drain (fuel : nat) (it : iterator) : option (list A * iterator) :=
  match fuel with
  | O => None
  | S fuel' =>
      match next it with
      | (None, it') => Some ([], it')
      | (Some x, it') =>
          match drain fuel' it' with
          | Some (xs, it'') => Some (x :: xs, it'')
          | None => None
          end
      end
  end.

(** [iter(l)] for a list [l]. *)
Definition list_step (l : list A) : option A * list A :=
  match l with
  | [] => (None, [])
  | x :: t => (Some x, t)
  end.

Definition iter (l : list A) : iterator := mkIterator (list A) l list_step.

(** [itertools.islice(iterable, stop)], with start 0 and step 1.  The
    object keeps the source iterator, the count of items passed on and
    whether the source is still held (it is dropped at the first
    [StopIteration]).  The test against [stop] comes before the call to
    the source. *)
Definition islice_next {S : Type} (src : S -> option A * S) (stop : Z)
    (st : S * Z * bool) : option A * (S * Z * bool) :=
  let '(s, cnt, held) := st in
  if negb held then (None, (s, cnt, false))
  else if stop <=? cnt then (None, (s, cnt, false))
  else
    match src s with
    | (None, s') => (None, (s', cnt, false))
    | (Some x, s') => (Some x, (s', cnt + 1, true))
    end.

(** An [islice] object over [it] that has passed on [cnt] items. *)
Definition islice_at (it : iterator) (stop cnt : Z) (held : bool) : iterator :=
  mkIterator (state it * Z * bool) (current it, cnt, held)
    (islice_next (step it) stop).

(** [sys.maxsize], the largest index of the platform ([2 ^ 63 - 1] on a
    64-bit build). *)
Variable maxsize : Z.

(** Creating the object: [islice] accepts a [stop] from 0 to
    [sys.maxsize] and raises [ValueError] for any other integer. *)
Definition islice (it : iterator) (stop : Z) : result iterator :=
  if (0 <=? stop) && (stop <=? maxsize)
  then Ok (islice_at it stop 0 true)
  else Raise ValueError.

(** [limit(iterator, n=None)], for [n] either [None] or an [int]:
    [if n and n > 0: return islice(iterator, n)], else [return iterator]. *)
Definition limit (iterator0 : iterator) (n : option Z) : result iterator :=
  match n with
  | Some k =>
      if truthy (VInt k) && (k >? 0) then islice iterator0 k else Ok iterator0
  | None => Ok iterator0
  end.

End Iterators.

Arguments iterator A : clear implicits.

(* ===================================================================== *)
(** ** Conjunctive evaluation *)

(** Modelled from the spec: the query mechanism that applies a filter
    collection to a record stream belongs to the caller and is not part of
    the sources at hand.  By the spec a record matches only if every
    filter of the collection returns true for it, the empty collection
    matches every record, and a failing filter aborts the operation. *)
Fixpoint matches (filters : list filter) (approach : CloseApproach.t) : result bool :=
  match filters with
  | [] => Ok true
  | f :: rest =>
      b <- call f approach ;;
      if b then matches rest approach else Ok false
  end.

Fixpoint query (filters : list filter) (stream : list CloseApproach.t)
  : result (list CloseApproach.t) :=
  match stream with
  | [] => Ok []
  | approach :: rest =>
      b <- matches filters approach ;;
      selected <- query filters rest ;;
      Ok (if b then approach :: selected else selected)
  end.

(* ===================================================================== *)
(** ** write.py *)

(** Characters of the default [csv] dialect. *)
Definition delimiter : ascii := ","%char.
Definition quotechar : ascii := "034"%char.
Definition CR : ascii := "013"%char.
Definition LF : ascii := "010"%char.
Definition lineterminator : string := String CR (String LF EmptyString).

(** A field is quoted (minimal quoting) when it holds the delimiter, the
    quote character or a character of the line terminator; quote
    characters inside it are doubled. *)
Definition special (c : ascii) : bool :=
  Ascii.eqb c delimiter || Ascii.eqb c quotechar || Ascii.eqb c CR || Ascii.eqb c LF.

Fixpoint has_special (s : string) : bool :=
  match s with
  | EmptyString => false
  | String c rest => special c || has_special rest
  end.

Fixpoint double_quotes (s : string) : string :=
  match s with
  | EmptyString => EmptyString
  | String c rest =>
      if Ascii.eqb c quotechar
      then String c (String c (double_quotes rest))
      else String c (double_quotes rest)
  end.

Definition csv_field (s : string) : string :=
  if has_special s
  then String quotechar (double_quotes s ++ String quotechar EmptyString)%string
  else s.

(** The objects found in a row and in a document. *)
Inductive cell : Type :=
| CStr (s : string)
| CFloat (f : spec_float)
| CBool (b : bool).

(** A JSON-serialisable object: [dict]s keep the order of insertion. *)
#[local] Set Warnings "-register-all".

Inductive json : Type :=
| JString (s : string)
| JFloat (f : spec_float)
| JBool (b : bool)
| JObject (members : list (string * json))
| JArray (items : list json).

Definition keys (j : json) : list string :=
  match j with
  | JObject members => map fst members
  | _ => []
  end.

Fixpoint assoc (k : string) (members : list (string * json)) : option json :=
  match members with
  | [] => None
  | (k', v) :: rest => if String.eqb k k' then Some v else assoc k rest
  end.

(** [d[k]] on a [dict]. *)
Definition item (k : string) (j : json) : option json :=
  match j with
  | JObject members => assoc k members
  | _ => None
  end.

Section Writers.

(** [helpers.datetime_to_str], which is not part of the sources at hand,
    and the [repr] of a [float], which belongs to the Python runtime. *)
Variable datetime_to_str : datetime -> string.
Variable float_repr : spec_float -> string.

(** The text [csv.writer] makes of an object of a row. *)
Definition cell_str (c : cell) : string :=
  match c with
  | CStr s => s
  | CFloat f => float_repr f
  | CBool b => if b then "True" else "False"
  end.

(** [writer.writerow(row)] on the text written so far. *)
Definition writerow (f : string) (row : list cell) : string :=
  (f ++ String.concat (String delimiter EmptyString)
          (map (fun c => csv_field (cell_str c)) row)
     ++ lineterminator)%string.

Definition writerows (f : string) (rows : list (list cell)) : string :=
  fold_left writerow rows f.

(** [x if x else ""] on an optional string. *)
Definition name_or_empty (name : option string) : string :=
  match name with
  | Some (String c rest) => String c rest
  | Some EmptyString => ""
  | None => ""
  end.

(** [write_to_csv(results, filename)]: the text written to the file. *)
Definition write_to_csv (results : list CloseApproach.t) : string :=
  let fieldnames :=
    [CStr "datetime_utc"; CStr "distance_au"; CStr "velocity_km_s";
     CStr "designation"; CStr "name"; CStr "diameter_km";
     CStr "potentially_hazardous"] in
  let f := "" in
  let f := writerow f fieldnames in
  writerows f
    (map (fun result =>
            [CStr (datetime_to_str (CloseApproach.time result));
             CFloat (CloseApproach.distance result);
             CFloat (CloseApproach.velocity result);
             CStr (CloseApproach.designation result);
             CStr (name_or_empty (NearEarthObject.name (CloseApproach.neo result)));
             CFloat (NearEarthObject.diameter (CloseApproach.neo result));
             CBool (NearEarthObject.hazardous (CloseApproach.neo result))])
         results).

Definition _result_to_dict (result : CloseApproach.t) : json :=
  let neo := CloseApproach.neo result in
  JObject
    [("datetime_utc", JString (datetime_to_str (CloseApproach.time result)));
     ("distance_au", JFloat (CloseApproach.distance result));
     ("velocity_km_s", JFloat (CloseApproach.velocity result));
     ("neo", JObject
        [("designation", JString (NearEarthObject.designation neo));
         ("name", JString (name_or_empty (NearEarthObject.name neo)));
         ("diameter_km", JFloat (NearEarthObject.diameter neo));
         ("potentially_hazardous", JBool (NearEarthObject.hazardous neo))])].

(** [write_to_json(results, filename)]: the object handed to
    [json.dump], which writes it as one document. *)
Definition write_to_json (results : list CloseApproach.t) : json :=
  JArray (map _result_to_dict results).

End Writers.

(* ===================================================================== *)
(** ** The statements of the specification, as definitions *)

(** The table of filter variants: which attribute is read and which
    comparator is applied. *)
Inductive variant : Type :=
| Hazardous | Date | StartDate | EndDate
| MinDistance | MaxDistance | MinVelocity | MaxVelocity
| MinDiameter | MaxDiameter.

Inductive comparator : Type := Equals | AtLeast | AtMost.

Definition table_comparator (v : variant) : comparator :=
  match v with
  | Hazardous | Date => Equals
  | StartDate | MinDistance | MinVelocity | MinDiameter => AtLeast
  | EndDate | MaxDistance | MaxVelocity | MaxDiameter => AtMost
  end.

Definition table_extract (v : variant) (record : CloseApproach.t) : pyobj :=
  match v with
  | Hazardous => VBool (NearEarthObject.hazardous (CloseApproach.neo record))
  | Date | StartDate | EndDate => VDate (dt_date (CloseApproach.time record))
  | MinDistance | MaxDistance => VFloat (CloseApproach.distance record)
  | MinVelocity | MaxVelocity => VFloat (CloseApproach.velocity record)
  | MinDiameter | MaxDiameter =>
      VFloat (NearEarthObject.diameter (CloseApproach.neo record))
  end.

Definition compare (c : comparator) (actual reference : pyobj) : result bool :=
  match c with
  | Equals => operator.eq actual reference
  | AtLeast => operator.ge actual reference
  | AtMost => operator.le actual reference
  end.

(** The class that the source instantiates for a variant. *)
Definition construct (v : variant) (r : pyobj) : filter :=
  match v with
  | Hazardous => HazardousFilter r
  | Date => DateFilter r
  | StartDate => StartDateFilter r
  | EndDate => EndDateFilter r
  | MinDistance => MinDistanceFilter r
  | MaxDistance => MaxDistanceFilter r
  | MinVelocity => MinVelocityFilter r
  | MaxVelocity => MaxVelocityFilter r
  | MinDiameter => MinDiameterFilter r
  | MaxDiameter => MaxDiameterFilter r
  end.

(** What a comparator makes of the way two objects stand to each other. *)
Definition holds (c : comparator) (o : comparison) : bool :=
  match c, o with
  | Equals, Eq => true
  | AtLeast, (Eq | Gt) => true
  | AtMost, (Eq | Lt) => true
  | _, _ => false
  end.

(** One filter for a requested criterion, none otherwise. *)
Definition slot (requested : pyobj -> bool) (make : pyobj -> filter) (v : pyobj)
  : list filter :=
  if requested v then [make v] else [].

(** The collection of the builder rule, in the order of enumeration, for a
    given reading [requested] of when one of the first nine criteria counts
    as requested; the hazard criterion counts when it is not [None]. *)
Definition expected_filters (requested : pyobj -> bool)
    (date start_date end_date
     distance_min distance_max
     velocity_min velocity_max
     diameter_min diameter_max
     hazardous : pyobj) : list filter :=
  slot requested DateFilter date
  ++ slot requested StartDateFilter start_date
  ++ slot requested EndDateFilter end_date
  ++ slot requested MinDistanceFilter distance_min
  ++ slot requested MaxDistanceFilter distance_max
  ++ slot requested MinVelocityFilter velocity_min
  ++ slot requested MaxVelocityFilter velocity_max
  ++ slot requested MinDiameterFilter diameter_min
  ++ slot requested MaxDiameterFilter diameter_max
  ++ slot is_not_None HazardousFilter hazardous.

(** The value 0 of a numeric option: the [int] and the two [float] zeros. *)
Definition is_zero (v : pyobj) : bool :=
  match v with
  | VInt 0 => true
  | VFloat (S754_zero _) => true
  | _ => false
  end.

(** A collection holds a hazard filter. *)
Definition is_hazard_class (c : class) : bool :=
  match c with
  | HazardousFilter_cls => true
  | _ => false
  end.

Definition has_hazard_filter (filters : list filter) : bool :=
  existsb (fun f => is_hazard_class (cls f)) filters.

(** Some floats and a record to try the definitions on: 0.05, 0.2, 0.3
    and 5.0 in binary64. *)
Definition f0_05 : spec_float := S754_finite false 7205759403792794 (-57).
Definition f0_2 : spec_float := S754_finite false 7205759403792794 (-55).
Definition f0_3 : spec_float := S754_finite false 5404319552844595 (-54).
Definition f5_0 : spec_float := S754_finite false 5629499534213120 (-50).

Definition eros : NearEarthObject.t :=
  NearEarthObject.make "433" None f0_2 true.

Definition sample : CloseApproach.t :=
  CloseApproach.make (mkDatetime (mkDate 2020 1 1) 0 0 0) f0_3 f5_0 "433" eros.

(** An unbounded source: [itertools.count(start)]. *)
Definition count (start : Z) : iterator Z :=
  mkIterator Z start (fun s => (Some s, s + 1)).

(** [sys.maxsize] on a 64-bit build. *)
Definition maxsize64 : Z := 2 ^ 63 - 1.

(** The rows of the CSV output as the spec words them: the header, and
    for a record the seven texts of its row, joined into a line. *)
Definition header_line : string :=
  ("datetime_utc,distance_au,velocity_km_s,designation,name,diameter_km,potentially_hazardous"
   ++ lineterminator)%string.

Definition row_line (fields : list string) : string :=
  (String.concat "," (map csv_field fields) ++ lineterminator)%string.

Definition record_fields (datetime_to_str : datetime -> string)
    (float_repr : spec_float -> string) (record : CloseApproach.t) : list string :=
  [datetime_to_str (CloseApproach.time record);
   float_repr (CloseApproach.distance record);
   float_repr (CloseApproach.velocity record);
   CloseApproach.designation record;
   match NearEarthObject.name (CloseApproach.neo record) with
   | Some s => s
   | None => ""
   end;
   float_repr (NearEarthObject.diameter (CloseApproach.neo record));
   if NearEarthObject.hazardous (CloseApproach.neo record) then "True" else "False"].

(** A rendering of timestamps to the minute and the [repr] of the floats
    of [sample], to run the writers on. *)
Definition digit (z : Z) : ascii := ascii_of_nat (48 + Z.to_nat (z mod 10)).

Definition digits2 (z : Z) : string :=
  String (digit (z / 10)) (String (digit z) EmptyString).

Definition minutes_str (t : datetime) : string :=
  (digits2 (year (dt_date t) / 100) ++ digits2 (year (dt_date t))
   ++ "-" ++ digits2 (month (dt_date t)) ++ "-" ++ digits2 (day (dt_date t))
   ++ " " ++ digits2 (hour t) ++ ":" ++ digits2 (minute t))%string.

Definition sample_repr (f : spec_float) : string :=
  if SFeqb f f0_3 then "0.3"
  else if SFeqb f f5_0 then "5.0"
  else if SFeqb f f0_2 then "0.2"
  else "nan".

(** Options of the documented types: a date or nothing, a number or
    nothing. *)
Definition date_option (v : pyobj) : bool :=
  match v with
  | VNone | VDate _ => true
  | _ => false
  end.

Definition number_option (v : pyobj) : bool :=
  match v with
  | VNone | VBool _ | VInt _ | VFloat _ => true
  | VDate _ => false
  end.

(** The variants that read a number, and the pairs of a lower and an
    upper bound on one attribute. *)
Definition numeric (v : variant) : bool :=
  match v with
  | MinDistance | MaxDistance | MinVelocity | MaxVelocity
  | MinDiameter | MaxDiameter => true
  | _ => false
  end.

Definition bounds (lower upper : variant) : bool :=
  match lower, upper with
  | StartDate, EndDate
  | MinDistance, MaxDistance
  | MinVelocity, MaxVelocity
  | MinDiameter, MaxDiameter => true
  | _, _ => false
  end.

(** A source that never raises [StopIteration]. *)
Definition never_stops {A : Type} (it : iterator A) : Prop :=
  forall s : state it, fst (step it s) <> None.

(** Occurrences of a character in a text. *)
Fixpoint count_char (c : ascii) (s : string) : nat :=
  match s with
  | EmptyString => O
  | String x rest => ((if Ascii.eqb x c then 1 else 0) + count_char c rest)%nat
  end.

(** A record with the name of its object replaced. *)
Definition with_name (name : option string) (record : CloseApproach.t)
  : CloseApproach.t :=
  let neo := CloseApproach.neo record in
  CloseApproach.make
    (CloseApproach.time record) (CloseApproach.distance record)
    (CloseApproach.velocity record) (CloseApproach.designation record)
    (NearEarthObject.make
       (NearEarthObject.designation neo) name
       (NearEarthObject.diameter neo) (NearEarthObject.hazardous neo)).

(** A record whose object has no known diameter. *)
Definition unsized : CloseApproach.t :=
  CloseApproach.make (mkDatetime (mkDate 2020 1 1) 0 0 0) f0_3 f5_0 "433"
    (NearEarthObject.make "433" None S754_nan false).

(* ===================================================================== *)
(** * Properties *)

(** ** Filters *)

Example min_distance_sample :
  call (MinDistanceFilter (VFloat f0_05)) sample = Ok true.
Proof. reflexivity. Qed.

Example max_distance_sample :
  call (MaxDistanceFilter (VFloat f0_05)) sample = Ok false.
Proof. reflexivity. Qed.

Example int_reference_sample :
  call (MaxVelocityFilter (VInt 5)) sample = Ok true.
Proof. reflexivity. Qed.

Example start_date_sample :
  call (StartDateFilter (VDate (mkDate 2019 12 31))) sample = Ok true.
Proof. reflexivity. Qed.

Example unrelated_reference_sample :
  call (StartDateFilter (VFloat f0_3)) sample = Raise TypeError.
Proof. reflexivity. Qed.

(** Comparing objects that can be ordered gives a boolean, the one the
    comparator reads off their order. *)
Lemma compare_ordered (c : comparator) (x y : pyobj) (o : comparison) :
  order x y = Ordered o -> compare c x y = Ok (holds c o).
Proof.
  intros H. destruct c; simpl.
  - unfold operator.eq. rewrite H.
    destruct x, y; try discriminate H; destruct o; reflexivity.
  - unfold operator.ge. rewrite H. destruct o; reflexivity.
  - unfold operator.le. rewrite H. destruct o; reflexivity.
Qed.

(** A NaN satisfies no comparator. *)
Lemma compare_unordered (c : comparator) (x y : pyobj) :
  order x y = Unordered -> compare c x y = Ok false.
Proof.
  intros H. destruct c; simpl.
  - unfold operator.eq. rewrite H. destruct x, y; try discriminate H; reflexivity.
  - unfold operator.ge. rewrite H. reflexivity.
  - unfold operator.le. rewrite H. reflexivity.
Qed.

(** C1: every filter variant, built with reference value [r], evaluates on
    a record to the comparator of the variants table applied to the
    attribute that the table extracts from the record and to [r]. *)
Theorem call_variant (v : variant) (r : pyobj) (record : CloseApproach.t) :
  call (construct v r) record
  = compare (table_comparator v) (table_extract v record) r
  /\ (forall o : comparison,
        order (table_extract v record) r = Ordered o ->
        call (construct v r) record = Ok (holds (table_comparator v) o)).
Proof.
  assert (E : call (construct v r) record
              = compare (table_comparator v) (table_extract v record) r)
    by (destruct v; reflexivity).
  split; [exact E |].
  intros o H. rewrite E. apply compare_ordered. exact H.
Qed.

Lemma call_variant_witness :
  order (table_extract MinDistance sample) (VFloat f0_05) = Ordered Gt
  /\ call (construct MinDistance (VFloat f0_05)) sample = Ok true.
Proof.
  split; [reflexivity |].
  apply (proj2 (call_variant MinDistance (VFloat f0_05) sample) Gt).
  reflexivity.
Defined.

(** C6: evaluating a filter of the base class, whatever its comparator,
    reference value and record, raises [UnsupportedCriterionError]; the
    call hands the exception on and returns no boolean. *)
Theorem call_base_raises
    (op : pyobj -> pyobj -> result bool) (r : pyobj) (record : CloseApproach.t) :
  call (AttributeFilter op r) record = Raise UnsupportedCriterionError
  /\ (forall b : bool, call (AttributeFilter op r) record <> Ok b).
Proof.
  split; [reflexivity | intros b H; discriminate H].
Qed.

(** ** The builder *)

Lemma append_if (b : bool) (l : list filter) (f : filter) :
  (if b then l ++ [f] else l) = l ++ (if b then [f] else []).
Proof. destruct b; [reflexivity | now rewrite app_nil_r]. Qed.

(** The appends of [create_filters], one slot after the other. *)
Lemma create_filters_slots
    (date start_date end_date distance_min distance_max
     velocity_min velocity_max diameter_min diameter_max hazardous : pyobj) :
  create_filters date start_date end_date distance_min distance_max
    velocity_min velocity_max diameter_min diameter_max hazardous
  = expected_filters truthy date start_date end_date distance_min distance_max
      velocity_min velocity_max diameter_min diameter_max hazardous.
Proof.
  unfold create_filters, expected_filters, slot.
  rewrite !append_if. simpl. rewrite <- !app_assoc. reflexivity.
Qed.

(** C2, as stated, fails: a minimum distance of 0.0 is present, and the
    builder makes no filter for it. *)
Lemma create_filters_present_zero :
  create_filters VNone VNone VNone (VFloat (S754_zero false)) VNone
    VNone VNone VNone VNone VNone = []
  /\ expected_filters is_not_None VNone VNone VNone (VFloat (S754_zero false)) VNone
       VNone VNone VNone VNone VNone
     = [MinDistanceFilter (VFloat (S754_zero false))]
  /\ ~ (forall date start_date end_date distance_min distance_max
          velocity_min velocity_max diameter_min diameter_max hazardous : pyobj,
        create_filters date start_date end_date distance_min distance_max
          velocity_min velocity_max diameter_min diameter_max hazardous
        = expected_filters is_not_None date start_date end_date distance_min
            distance_max velocity_min velocity_max diameter_min diameter_max
            hazardous).
Proof.
  split; [reflexivity | split; [reflexivity |]].
  intros H.
  specialize (H VNone VNone VNone (VFloat (S754_zero false)) VNone
                VNone VNone VNone VNone VNone).
  discriminate H.
Qed.

(** C2, amended: for every configuration of the ten criteria the builder
    returns, in the order date, start_date, end_date, distance_min,
    distance_max, velocity_min, velocity_max, diameter_min, diameter_max,
    hazardous, exactly one filter of the corresponding class, built with
    the supplied value, for each of the first nine criteria whose value is
    truthy and for the hazard criterion when it is not [None], and no other
    filter. *)
Theorem create_filters_truthy
    (date start_date end_date distance_min distance_max
     velocity_min velocity_max diameter_min diameter_max hazardous : pyobj) :
  create_filters date start_date end_date distance_min distance_max
    velocity_min velocity_max diameter_min diameter_max hazardous
  = slot truthy DateFilter date
    ++ slot truthy StartDateFilter start_date
    ++ slot truthy EndDateFilter end_date
    ++ slot truthy MinDistanceFilter distance_min
    ++ slot truthy MaxDistanceFilter distance_max
    ++ slot truthy MinVelocityFilter velocity_min
    ++ slot truthy MaxVelocityFilter velocity_max
    ++ slot truthy MinDiameterFilter diameter_min
    ++ slot truthy MaxDiameterFilter diameter_max
    ++ slot is_not_None HazardousFilter hazardous.
Proof. apply create_filters_slots. Qed.

Example create_filters_one_field :
  create_filters VNone VNone VNone (VFloat f0_05) VNone VNone VNone VNone VNone VNone
  = [MinDistanceFilter (VFloat f0_05)].
Proof. reflexivity. Qed.

Example create_filters_dates_and_hazard :
  create_filters VNone (VDate (mkDate 2020 1 1)) (VDate (mkDate 2020 1 31))
    VNone VNone VNone VNone VNone VNone (VBool true)
  = [StartDateFilter (VDate (mkDate 2020 1 1));
     EndDateFilter (VDate (mkDate 2020 1 31));
     HazardousFilter (VBool true)].
Proof. reflexivity. Qed.

Lemma has_hazard_filter_app (l1 l2 : list filter) :
  has_hazard_filter (l1 ++ l2) = has_hazard_filter l1 || has_hazard_filter l2.
Proof. apply existsb_app. Qed.

Lemma has_hazard_filter_slot (make : pyobj -> filter) (v : pyobj) :
  (forall r, is_hazard_class (cls (make r)) = false) ->
  has_hazard_filter (slot truthy make v) = false.
Proof.
  intros H. unfold slot. destruct (truthy v); simpl; [rewrite H|]; reflexivity.
Qed.

(** C4: with [hazardous=False] the builder returns a hazard filter, which
    a record satisfies exactly when the hazard flag of its object is
    [False]; with [hazardous] unset it returns no hazard filter; whatever
    the other criteria, the collection holds a hazard filter exactly when
    [hazardous] is not [None] (so also for the falsy [False]), and the
    filter it then holds is the one built with the value supplied. *)
Theorem hazardous_tri_state :
  create_filters VNone VNone VNone VNone VNone VNone VNone VNone VNone (VBool false)
  = [HazardousFilter (VBool false)]
  /\ (forall record : CloseApproach.t,
        call (HazardousFilter (VBool false)) record
        = Ok (Bool.eqb (NearEarthObject.hazardous (CloseApproach.neo record)) false))
  /\ create_filters VNone VNone VNone VNone VNone VNone VNone VNone VNone VNone = []
  /\ (forall date start_date end_date distance_min distance_max
        velocity_min velocity_max diameter_min diameter_max hazardous : pyobj,
        has_hazard_filter
          (create_filters date start_date end_date distance_min distance_max
             velocity_min velocity_max diameter_min diameter_max hazardous)
        = is_not_None hazardous
        /\ List.filter (fun f => is_hazard_class (cls f))
             (create_filters date start_date end_date distance_min distance_max
                velocity_min velocity_max diameter_min diameter_max hazardous)
           = slot is_not_None HazardousFilter hazardous)
  /\ has_hazard_filter
       (create_filters VNone VNone VNone VNone VNone VNone VNone VNone VNone (VBool false))
     <> has_hazard_filter
          (create_filters VNone VNone VNone VNone VNone VNone VNone VNone VNone VNone).
Proof.
  split; [reflexivity |].
  split; [intros record; unfold call; simpl;
          destruct (NearEarthObject.hazardous (CloseApproach.neo record)); reflexivity |].
  split; [reflexivity |].
  split; [| discriminate].
  intros. rewrite create_filters_slots. unfold expected_filters.
  split.
  - rewrite !has_hazard_filter_app, !has_hazard_filter_slot by reflexivity.
    simpl. unfold slot. destruct hazardous; reflexivity.
  - rewrite !filter_app.
    assert (E : forall make v, (forall r, is_hazard_class (cls (make r)) = false) ->
                List.filter (fun f => is_hazard_class (cls f)) (slot truthy make v) = []).
    { intros make v H. unfold slot. destruct (truthy v); simpl; [rewrite H|]; reflexivity. }
    rewrite !E by reflexivity. simpl. unfold slot.
    destruct hazardous; reflexivity.
Qed.

(** C5: for each of the six numeric minimum and maximum options, passing
    the value 0 gives the collection that leaving the option unset gives,
    whatever the other criteria; and with only [distance_min=0] the
    collection is empty. *)
Theorem zero_is_unset (zero : pyobj) (Hzero : is_zero zero = true)
    (date start_date end_date distance_min distance_max
     velocity_min velocity_max diameter_min diameter_max hazardous : pyobj) :
  create_filters date start_date end_date zero distance_max
    velocity_min velocity_max diameter_min diameter_max hazardous
  = create_filters date start_date end_date VNone distance_max
      velocity_min velocity_max diameter_min diameter_max hazardous
  /\ create_filters date start_date end_date distance_min zero
       velocity_min velocity_max diameter_min diameter_max hazardous
     = create_filters date start_date end_date distance_min VNone
         velocity_min velocity_max diameter_min diameter_max hazardous
  /\ create_filters date start_date end_date distance_min distance_max
       zero velocity_max diameter_min diameter_max hazardous
     = create_filters date start_date end_date distance_min distance_max
         VNone velocity_max diameter_min diameter_max hazardous
  /\ create_filters date start_date end_date distance_min distance_max
       velocity_min zero diameter_min diameter_max hazardous
     = create_filters date start_date end_date distance_min distance_max
         velocity_min VNone diameter_min diameter_max hazardous
  /\ create_filters date start_date end_date distance_min distance_max
       velocity_min velocity_max zero diameter_max hazardous
     = create_filters date start_date end_date distance_min distance_max
         velocity_min velocity_max VNone diameter_max hazardous
  /\ create_filters date start_date end_date distance_min distance_max
       velocity_min velocity_max diameter_min zero hazardous
     = create_filters date start_date end_date distance_min distance_max
         velocity_min velocity_max diameter_min VNone hazardous
  /\ create_filters VNone VNone VNone zero VNone VNone VNone VNone VNone VNone = [].
Proof.
  assert (F : truthy zero = false).
  { destruct zero as [| b | z | f | d]; try discriminate Hzero.
    - destruct z; try discriminate Hzero. reflexivity.
    - destruct f; try discriminate Hzero. reflexivity. }
  rewrite !create_filters_slots. unfold expected_filters, slot.
  rewrite !F. simpl. repeat split; reflexivity.
Qed.

Lemma zero_is_unset_witness :
  is_zero (VInt 0) = true
  /\ create_filters VNone VNone VNone (VInt 0) VNone VNone VNone VNone VNone VNone = [].
Proof.
  split; [reflexivity |].
  apply (zero_is_unset (VInt 0) eq_refl
           VNone VNone VNone VNone VNone VNone VNone VNone VNone VNone).
Defined.

(** ** The empty collection *)

Lemma query_nil (stream : list CloseApproach.t) : query [] stream = Ok stream.
Proof.
  induction stream as [| approach rest IH]; simpl; [reflexivity |].
  rewrite IH. reflexivity.
Qed.

(** C7: with every option unset the builder returns the empty collection;
    the empty collection matches every record, and applying it to a record
    stream gives the stream back unchanged. *)
Theorem empty_options_identity :
  create_filters VNone VNone VNone VNone VNone VNone VNone VNone VNone VNone = []
  /\ (forall record : CloseApproach.t, matches [] record = Ok true)
  /\ (forall stream : list CloseApproach.t,
        query (create_filters VNone VNone VNone VNone VNone
                 VNone VNone VNone VNone VNone) stream
        = Ok stream).
Proof.
  split; [reflexivity |]. split; [reflexivity |].
  intros stream. apply query_nil.
Qed.

(** ** The limiter *)

Example limit_count_3 :
  exists limited : iterator Z,
    limit maxsize64 (count 0) (Some 3) = Ok limited
    /\ drain 4 limited = Some ([0; 1; 2], islice_at (count 3) 3 3 false).
Proof. eexists. split; reflexivity. Qed.

Example limit_list_2 :
  exists limited : iterator string,
    limit maxsize64 (iter ["a"; "b"; "c"]) (Some 2) = Ok limited
    /\ drain 3 limited = Some (["a"; "b"], islice_at (iter ["c"]) 2 2 false).
Proof. eexists. split; reflexivity. Qed.

Example limit_short_list :
  exists limited : iterator string,
    limit maxsize64 (iter ["a"]) (Some 5) = Ok limited
    /\ drain 2 limited = Some (["a"], islice_at (iter []) 5 1 false).
Proof. eexists. split; reflexivity. Qed.

Section LimiterFacts.

Context {A : Type}.

(** Consuming a list iterator. *)
Lemma take_iter (k : nat) (l : list A) :
  take k (iter l) = (firstn k l, iter (skipn k l)).
Proof.
  revert l. induction k as [| k IH]; intros l; [reflexivity |].
  destruct l as [| x t]; [reflexivity |].
  simpl. unfold next. simpl.
  change (mkIterator (list A) t list_step) with (iter t).
  rewrite IH. reflexivity.
Qed.

(** One step of the two consumers. *)
Lemma take_S_some (k : nat) (it it' : iterator A) (x : A) :
  next it = (Some x, it') ->
  take (S k) it = (x :: fst (take k it'), snd (take k it')).
Proof.
  intros H. cbn [take]. rewrite H. destruct (take k it'); reflexivity.
Qed.

Lemma take_S_none (k : nat) (it it' : iterator A) :
  next it = (None, it') -> take (S k) it = ([], it').
Proof. intros H. cbn [take]. rewrite H. reflexivity. Qed.

(** One call to an [islice] object that still holds its source. *)
Lemma next_islice_stop (it : iterator A) (stop cnt : Z) :
  stop <= cnt ->
  next (islice_at it stop cnt true) = (None, islice_at it stop cnt false).
Proof.
  intros H. destruct it as [St s f]. unfold next, islice_at. cbn.
  destruct (Z.leb_spec stop cnt); [reflexivity | lia].
Qed.

Lemma next_islice_some (it it' : iterator A) (stop cnt : Z) (x : A) :
  cnt < stop ->
  next it = (Some x, it') ->
  next (islice_at it stop cnt true) = (Some x, islice_at it' stop (cnt + 1) true).
Proof.
  intros H E. destruct it as [St s f]. unfold next, islice_at in *. cbn in *.
  destruct (Z.leb_spec stop cnt); [lia |].
  destruct (f s) as [[y |] s']; inversion E; subst. reflexivity.
Qed.

Lemma next_islice_none (it it' : iterator A) (stop cnt : Z) :
  cnt < stop ->
  next it = (None, it') ->
  next (islice_at it stop cnt true) = (None, islice_at it' stop cnt false).
Proof.
  intros H E. destruct it as [St s f]. unfold next, islice_at in *. cbn in *.
  destruct (Z.leb_spec stop cnt); [lia |].
  destruct (f s) as [[y |] s']; inversion E; subst. reflexivity.
Qed.

(** Running an [islice] object to its end: it stops within one call
    more than the items it may still pass on, it has then passed on what
    that many calls to [next] get from the source, and the source is
    left where these calls leave it. *)
Lemma drain_islice_at (fuel : nat) :
  forall (it : iterator A) (stop cnt : Z),
    (Z.to_nat (stop - cnt) < fuel)%nat ->
    drain fuel (islice_at it stop cnt true)
    = Some (fst (take (Z.to_nat (stop - cnt)) it),
            islice_at (snd (take (Z.to_nat (stop - cnt)) it)) stop
              (cnt + Z.of_nat (List.length (fst (take (Z.to_nat (stop - cnt)) it))))
              false).
Proof.
  induction fuel as [| fuel IH]; intros it stop cnt Hfuel; [lia |].
  cbn [drain].
  destruct (Z.le_gt_cases stop cnt) as [Hle | Hlt].
  - rewrite next_islice_stop by exact Hle.
    replace (Z.to_nat (stop - cnt)) with O by lia.
    cbn. rewrite Z.add_0_r. reflexivity.
  - assert (E : Z.to_nat (stop - cnt) = S (Z.to_nat (stop - (cnt + 1)))) by lia.
    rewrite E.
    destruct (next it) as [[x |] it'] eqn:N.
    + rewrite (next_islice_some it it' stop cnt x Hlt N).
      rewrite (IH it' stop (cnt + 1)) by lia.
      rewrite (take_S_some _ it it' x N). cbn [fst snd List.length].
      do 3 f_equal. lia.
    + rewrite (next_islice_none it it' stop cnt Hlt N).
      rewrite (take_S_none _ it it' N). cbn. rewrite Z.add_0_r. reflexivity.
Qed.

Variable maxsize : Z.

(** Within the range that [islice] accepts, [limit] makes an [islice]
    object; above it, the [ValueError] of [islice] goes through. *)
Lemma limit_islice (it : iterator A) (n : Z) :
  0 < n -> n <= maxsize ->
  limit maxsize it (Some n) = Ok (islice_at it n 0 true).
Proof.
  intros Hn Hmax. unfold limit, islice.
  destruct n as [| p | p]; try lia. cbn [truthy Z.eqb negb Z.gtb Z.compare andb Z.leb].
  destruct (Z.leb_spec (Z.pos p) maxsize); [reflexivity | lia].
Qed.

Lemma limit_too_large (it : iterator A) (n : Z) :
  0 < n -> maxsize < n -> limit maxsize it (Some n) = Raise ValueError.
Proof.
  intros Hn Hmax. unfold limit, islice.
  destruct n as [| p | p]; try lia. cbn [truthy Z.eqb negb Z.gtb Z.compare andb Z.leb].
  destruct (Z.leb_spec (Z.pos p) maxsize); [lia | reflexivity].
Qed.

Lemma limit_not_positive (it : iterator A) (n : Z) :
  n <= 0 -> limit maxsize it (Some n) = Ok it.
Proof.
  intros Hn. unfold limit.
  destruct n as [| p | p]; try lia; reflexivity.
Qed.

(** Reading a fresh [islice] object to its end. *)
Lemma drain_islice (it : iterator A) (n : Z) (fuel : nat) :
  (Z.to_nat n < fuel)%nat ->
  drain fuel (islice_at it n 0 true)
  = Some (fst (take (Z.to_nat n) it),
          islice_at (snd (take (Z.to_nat n) it)) n
            (Z.of_nat (List.length (fst (take (Z.to_nat n) it)))) false).
Proof.
  intros Hfuel. pose proof (drain_islice_at fuel it n 0) as H.
  rewrite Z.sub_0_r in H. rewrite H by exact Hfuel. reflexivity.
Qed.

End LimiterFacts.

(** C3, as stated, fails: for an [n] above [sys.maxsize], here [2 ^ 63]
    on a 64-bit build, [limit] raises [ValueError] and yields no item. *)
Lemma limit_beyond_maxsize :
  0 < 2 ^ 63
  /\ limit maxsize64 (iter [1; 2; 3]) (Some (2 ^ 63)) = Raise ValueError
  /\ ~ (forall (items : list Z) (n : Z), 0 < n ->
        exists limited rest : iterator Z,
          limit maxsize64 (iter items) (Some n) = Ok limited
          /\ drain (S (Z.to_nat n)) limited = Some (firstn (Z.to_nat n) items, rest)).
Proof.
  split; [reflexivity |]. split; [reflexivity |].
  intros H. destruct (H [1; 2; 3] (2 ^ 63) eq_refl) as (limited & rest & E & _).
  discriminate E.
Qed.

(** C3, amended: for [n] unset or 0, [limit] returns the very iterator it
    was given, for every source, bounded or not.  For [0 < n <=
    sys.maxsize] it returns an iterator; reading that to its end stops
    within [n + 1] calls for every source, gives the items that [n] calls
    to [next] get from the source, and leaves the source where these [n]
    calls leave it; for a source over a list these are the first
    [min (len items) n] items of the list, in order, and the items after
    the [n]-th stay in the source. *)
Theorem limit_spec (maxsize : Z) (A : Type) (source : iterator A) :
  (limit maxsize source None = Ok source /\ limit maxsize source (Some 0) = Ok source)
  /\ forall n : Z, 0 < n -> n <= maxsize ->
       (exists limited : iterator A,
          limit maxsize source (Some n) = Ok limited
          /\ forall fuel : nat, (Z.to_nat n < fuel)%nat ->
               drain fuel limited
               = Some (fst (take (Z.to_nat n) source),
                       islice_at (snd (take (Z.to_nat n) source)) n
                         (Z.of_nat (List.length (fst (take (Z.to_nat n) source))))
                         false))
       /\ (forall items : list A,
             exists limited : iterator A,
               limit maxsize (iter items) (Some n) = Ok limited
               /\ (forall fuel : nat, (Z.to_nat n < fuel)%nat ->
                     drain fuel limited
                     = Some (firstn (Z.to_nat n) items,
                             islice_at (iter (skipn (Z.to_nat n) items)) n
                               (Z.of_nat (List.length (firstn (Z.to_nat n) items)))
                               false))
               /\ List.length (firstn (Z.to_nat n) items)
                  = Nat.min (List.length items) (Z.to_nat n)).
Proof.
  split; [split; reflexivity |].
  intros n Hn Hmax. split.
  - eexists. split; [apply limit_islice; assumption |].
    intros fuel Hfuel. apply drain_islice. exact Hfuel.
  - intros items. eexists. split; [apply limit_islice; assumption |]. split.
    + intros fuel Hfuel. rewrite drain_islice by exact Hfuel.
      rewrite take_iter. reflexivity.
    + rewrite length_firstn. apply Nat.min_comm.
Qed.

Lemma limit_spec_witness :
  0 < 2 /\ 2 <= maxsize64
  /\ exists limited : iterator string,
       limit maxsize64 (iter ["a"; "b"; "c"]) (Some 2) = Ok limited
       /\ drain 3 limited = Some (["a"; "b"], islice_at (iter ["c"]) 2 2 false).
Proof.
  split; [lia |]. split; [apply Z.leb_le; reflexivity |].
  destruct (proj2 (limit_spec maxsize64 string (iter ["a"; "b"; "c"])) 2
              ltac:(lia) ltac:(apply Z.leb_le; reflexivity)) as [_ H].
  destruct (H ["a"; "b"; "c"]) as (limited & E & D & _).
  exists limited. split; [exact E |].
  apply (D 3%nat). simpl. lia.
Defined.

(** C10: for a negative [n], [limit] returns the very iterator it was
    given: nothing is cut off and no error is raised. *)
Theorem limit_negative (maxsize : Z) (A : Type) (source : iterator A) (n : Z) :
  n < 0 -> limit maxsize source (Some n) = Ok source.
Proof.
  intros Hn. unfold limit.
  destruct n as [| p | p]; try lia. reflexivity.
Qed.

Lemma limit_negative_witness :
  -1 < 0 /\ limit maxsize64 (count 0) (Some (-1)) = Ok (count 0).
Proof.
  split; [lia | apply (limit_negative maxsize64 Z (count 0) (-1)); lia].
Defined.

(** ** The writers *)

Example minutes_str_sample :
  minutes_str (CloseApproach.time sample) = "2020-01-01 00:00".
Proof. reflexivity. Qed.

Example csv_field_plain : csv_field "2020-01-01 00:00" = "2020-01-01 00:00".
Proof. reflexivity. Qed.

Example csv_field_comma :
  csv_field "Halley, 1P"
  = String quotechar ("Halley, 1P" ++ String quotechar EmptyString)%string.
Proof. reflexivity. Qed.

Section WriterFacts.

Variable datetime_to_str : datetime -> string.
Variable float_repr : spec_float -> string.

Lemma name_or_empty_spec (name : option string) :
  name_or_empty name = match name with Some s => s | None => "" end.
Proof. destruct name as [[| c rest] |]; reflexivity. Qed.

Lemma append_assoc (a b c : string) : ((a ++ b) ++ c = a ++ (b ++ c))%string.
Proof. induction a as [| x a IH]; simpl; [| rewrite IH]; reflexivity. Qed.

Lemma append_empty (a : string) : (a ++ "" = a)%string.
Proof. induction a as [| x a IH]; simpl; [| rewrite IH]; reflexivity. Qed.

Lemma concat_empty_cons (x : string) (xs : list string) :
  String.concat "" (x :: xs) = (x ++ String.concat "" xs)%string.
Proof.
  destruct xs as [| y ys]; cbn [String.concat]; [now rewrite append_empty | reflexivity].
Qed.

(** [writerows] appends the lines of its rows, in order. *)
Lemma writerows_lines (rows : list (list cell)) :
  forall f : string,
    writerows float_repr f rows
    = (f ++ String.concat ""
              (map (fun row => row_line (map (cell_str float_repr) row)) rows))%string.
Proof.
  induction rows as [| row rows IH]; intros f; unfold writerows in *.
  - cbn. now rewrite append_empty.
  - cbn [fold_left map]. rewrite IH, concat_empty_cons.
    unfold writerow, row_line. rewrite map_map, !append_assoc. reflexivity.
Qed.

End WriterFacts.

(** C8: the text written by [write_to_csv] is the header line with the
    seven column names followed by one line per record, in stream order,
    whose fields are, in this order, the timestamp in its string form, the
    distance, the velocity, the designation, the name of the object (empty
    when absent), its diameter and its hazard flag as [True] or [False];
    for the single record of the scenario the line after the header is
    [2020-01-01 00:00,0.3,5.0,433,,0.2,True]. *)
Theorem write_to_csv_rows
    (datetime_to_str : datetime -> string) (float_repr : spec_float -> string) :
  (forall results : list CloseApproach.t,
     write_to_csv datetime_to_str float_repr results
     = (header_line
        ++ String.concat ""
             (map (fun record => row_line (record_fields datetime_to_str float_repr record))
                  results))%string)
  /\ (forall record : CloseApproach.t,
        datetime_to_str (CloseApproach.time record) = "2020-01-01 00:00" ->
        float_repr (CloseApproach.distance record) = "0.3" ->
        float_repr (CloseApproach.velocity record) = "5.0" ->
        CloseApproach.designation record = "433" ->
        NearEarthObject.name (CloseApproach.neo record) = None ->
        float_repr (NearEarthObject.diameter (CloseApproach.neo record)) = "0.2" ->
        NearEarthObject.hazardous (CloseApproach.neo record) = true ->
        write_to_csv datetime_to_str float_repr [record]
        = (header_line ++ "2020-01-01 00:00,0.3,5.0,433,,0.2,True" ++ lineterminator)%string).
Proof.
  assert (R : forall results : list CloseApproach.t,
            write_to_csv datetime_to_str float_repr results
            = (header_line
               ++ String.concat ""
                    (map (fun record =>
                            row_line (record_fields datetime_to_str float_repr record))
                         results))%string).
  { intros results. unfold write_to_csv. rewrite writerows_lines.
    f_equal. rewrite map_map. f_equal. apply map_ext. intros record.
    unfold record_fields. cbn [map cell_str]. rewrite name_or_empty_spec.
    reflexivity. }
  split; [exact R |].
  intros record Ht Hd Hv Hg Hn Hm Hh. rewrite R.
  cbn [map]. unfold record_fields. rewrite Ht, Hd, Hv, Hg, Hn, Hm, Hh.
  reflexivity.
Qed.

Lemma write_to_csv_rows_witness :
  minutes_str (CloseApproach.time sample) = "2020-01-01 00:00"
  /\ sample_repr (CloseApproach.distance sample) = "0.3"
  /\ sample_repr (CloseApproach.velocity sample) = "5.0"
  /\ sample_repr (NearEarthObject.diameter (CloseApproach.neo sample)) = "0.2"
  /\ write_to_csv minutes_str sample_repr [sample]
     = (header_line ++ "2020-01-01 00:00,0.3,5.0,433,,0.2,True" ++ lineterminator)%string.
Proof.
  repeat (split; [reflexivity |]).
  apply (proj2 (write_to_csv_rows minutes_str sample_repr) sample); reflexivity.
Defined.

(** C9: the object written by [write_to_json] is one array with one
    element per record, in stream order; each element is an object with
    exactly the keys [datetime_utc], [distance_au], [velocity_km_s] and
    [neo], and [neo] is an object with exactly the keys [designation],
    [name] (the empty string when the object has no name), [diameter_km]
    and [potentially_hazardous]; there is no [designation] at the top
    level of an element. *)
Theorem write_to_json_document (datetime_to_str : datetime -> string) :
  (forall results : list CloseApproach.t,
     write_to_json datetime_to_str results
     = JArray (map (_result_to_dict datetime_to_str) results))
  /\ (forall record : CloseApproach.t,
        let element := _result_to_dict datetime_to_str record in
        let subject := CloseApproach.neo record in
        keys element = ["datetime_utc"; "distance_au"; "velocity_km_s"; "neo"]
        /\ item "datetime_utc" element
           = Some (JString (datetime_to_str (CloseApproach.time record)))
        /\ item "distance_au" element = Some (JFloat (CloseApproach.distance record))
        /\ item "velocity_km_s" element = Some (JFloat (CloseApproach.velocity record))
        /\ item "designation" element = None
        /\ exists neo : json,
             item "neo" element = Some neo
             /\ keys neo
                = ["designation"; "name"; "diameter_km"; "potentially_hazardous"]
             /\ item "designation" neo
                = Some (JString (NearEarthObject.designation subject))
             /\ item "name" neo
                = Some (JString match NearEarthObject.name subject with
                                | Some s => s
                                | None => ""
                                end)
             /\ item "diameter_km" neo = Some (JFloat (NearEarthObject.diameter subject))
             /\ item "potentially_hazardous" neo
                = Some (JBool (NearEarthObject.hazardous subject))).
Proof.
  split; [reflexivity |].
  intros record element subject.
  repeat (split; [reflexivity |]).
  eexists. split; [reflexivity |].
  repeat (split; [reflexivity |]).
  split; [| split; reflexivity].
  cbn. rewrite name_or_empty_spec. reflexivity.
Qed.

Example write_to_json_sample :
  write_to_json minutes_str [sample]
  = JArray
      [JObject
         [("datetime_utc", JString "2020-01-01 00:00");
          ("distance_au", JFloat f0_3);
          ("velocity_km_s", JFloat f5_0);
          ("neo", JObject
             [("designation", JString "433");
              ("name", JString "");
              ("diameter_km", JFloat f0_2);
              ("potentially_hazardous", JBool true)])]].
Proof. reflexivity. Qed.

(* ===================================================================== *)
(** * Further properties *)

(** ** The order of objects *)

Ltac cmp_cases :=
  repeat match goal with
         | H : context [?a ?= ?b] |- _ => destruct (Z.compare_spec a b)
         | |- context [?a ?= ?b] => destruct (Z.compare_spec a b)
         end.

Lemma date_compare_antisym (d1 d2 : date) :
  date_compare d2 d1 = CompOpp (date_compare d1 d2).
Proof.
  unfold date_compare. cmp_cases; simpl; try reflexivity; lia.
Qed.

Lemma date_compare_trans (d1 d2 d3 : date) :
  date_compare d1 d2 <> Gt -> date_compare d2 d3 <> Gt -> date_compare d1 d3 <> Gt.
Proof.
  unfold date_compare. intros H12 H23.
  cmp_cases; try congruence; lia.
Qed.

Lemma mul_compare_pos (a b k : Z) : 0 < k -> (a * k ?= b * k) = (a ?= b).
Proof.
  intros Hk. destruct (Z.compare_spec a b) as [E | L | G].
  - subst. apply Z.compare_refl.
  - apply Z.compare_lt_iff. nia.
  - apply Z.compare_gt_iff. nia.
Qed.

Lemma dyadic_compare_scale (m1 e1 m2 e2 E : Z) :
  E <= e1 -> E <= e2 ->
  (m1 * 2 ^ (e1 - Z.min e1 e2) ?= m2 * 2 ^ (e2 - Z.min e1 e2))
  = (m1 * 2 ^ (e1 - E) ?= m2 * 2 ^ (e2 - E)).
Proof.
  intros H1 H2. set (e := Z.min e1 e2).
  assert (He : E <= e /\ e <= e1 /\ e <= e2) by (unfold e; lia).
  replace (e1 - E) with ((e1 - e) + (e - E)) by lia.
  replace (e2 - E) with ((e2 - e) + (e - E)) by lia.
  rewrite !Z.pow_add_r by lia. rewrite !Z.mul_assoc.
  apply eq_sym, mul_compare_pos.
  apply Z.pow_pos_nonneg; lia.
Qed.

Lemma number_compare_antisym (x y : number) (c : comparison) :
  number_compare x y = Some c -> number_compare y x = Some (CompOpp c).
Proof.
  destruct x, y; simpl; intros H; inversion H; subst; try reflexivity.
  rewrite (Z.min_comm e0 e). rewrite Z.compare_antisym. reflexivity.
Qed.

Lemma number_compare_trans (x y z : number) (c1 c2 : comparison) :
  number_compare x y = Some c1 -> c1 <> Gt ->
  number_compare y z = Some c2 -> c2 <> Gt ->
  exists c3, number_compare x z = Some c3 /\ c3 <> Gt.
Proof.
  destruct x as [| | | m1 e1], y as [| | | m2 e2], z as [| | | m3 e3]; simpl;
    intros H1 N1 H2 N2; inversion H1; inversion H2; subst;
    try (eexists; split; [reflexivity | congruence]); try congruence.
  eexists; split; [reflexivity |].
  set (E := Z.min e1 (Z.min e2 e3)).
  rewrite (dyadic_compare_scale m1 e1 m2 e2 E) in N1 by (unfold E; lia).
  rewrite (dyadic_compare_scale m2 e2 m3 e3 E) in N2 by (unfold E; lia).
  rewrite (dyadic_compare_scale m1 e1 m3 e3 E) by (unfold E; lia).
  rewrite Z.compare_gt_iff in *. 
  assert (P : 0 < 2 ^ (e2 - E)) by (apply Z.pow_pos_nonneg; unfold E; lia).
  lia.
Qed.

(** Two ordered objects are two dates or two numbers. *)
Lemma order_ordered_inv (a b : pyobj) (c : comparison) :
  order a b = Ordered c ->
  (exists d1 d2, a = VDate d1 /\ b = VDate d2 /\ date_compare d1 d2 = c)
  \/ (exists x y, as_number a = Some x /\ as_number b = Some y
                  /\ number_compare x y = Some c).
Proof.
  intros H. unfold order in H.
  destruct a, b; cbn [as_number] in H; try discriminate H;
    try (left; do 2 eexists; repeat split; congruence);
    right; do 2 eexists; (split; [reflexivity |]); (split; [reflexivity |]);
    match type of H with
    | match ?n with _ => _ end = _ => destruct n; congruence
    end.
Qed.

Lemma order_numbers (a b : pyobj) (x y : number) :
  as_number a = Some x -> as_number b = Some y ->
  order a b = match number_compare x y with
              | Some c => Ordered c
              | None => Unordered
              end.
Proof.
  intros Ha Hb. destruct a, b; simpl in *; try discriminate;
    inversion Ha; inversion Hb; subst; reflexivity.
Qed.

Lemma order_antisym (a b : pyobj) (c : comparison) :
  order a b = Ordered c -> order b a = Ordered (CompOpp c).
Proof.
  intros H. destruct (order_ordered_inv a b c H)
    as [(d1 & d2 & -> & -> & <-) | (x & y & Ha & Hb & Hc)].
  - simpl. now rewrite date_compare_antisym.
  - rewrite (order_numbers b a y x Hb Ha).
    now rewrite (number_compare_antisym x y c Hc).
Qed.

Lemma order_trans (a b c : pyobj) (c1 c2 : comparison) :
  order a b = Ordered c1 -> c1 <> Gt ->
  order b c = Ordered c2 -> c2 <> Gt ->
  exists c3, order a c = Ordered c3 /\ c3 <> Gt.
Proof.
  intros H1 N1 H2 N2.
  destruct (order_ordered_inv a b c1 H1)
    as [(d1 & d2 & -> & -> & <-) | (x & y & Ha & Hb & Hc)];
    destruct (order_ordered_inv _ _ _ H2)
      as [(d2' & d3 & E & -> & <-) | (y' & z & Hb' & Hc' & Hd)].
  - inversion E; subst. simpl. eexists; split; [reflexivity |].
    eapply date_compare_trans; eassumption.
  - discriminate Hb'.
  - rewrite E in Hb. discriminate Hb.
  - rewrite Hb in Hb'. inversion Hb'; subst y'.
    destruct (number_compare_trans x y z c1 c2 Hc N1 Hd N2) as (c3 & E3 & N3).
    exists c3. split; [| exact N3].
    rewrite (order_numbers a c x z Ha Hc'), E3. reflexivity.
Qed.

Lemma ge_true (x y : pyobj) :
  operator.ge x y = Ok true <-> exists c, order x y = Ordered c /\ c <> Lt.
Proof.
  unfold operator.ge. split.
  - destruct (order x y) as [| | []]; intros H; try discriminate H;
      eexists; split; try reflexivity; discriminate.
  - intros (c & -> & N). destruct c; congruence.
Qed.

Lemma le_true (x y : pyobj) :
  operator.le x y = Ok true <-> exists c, order x y = Ordered c /\ c <> Gt.
Proof.
  unfold operator.le. split.
  - destruct (order x y) as [| | []]; intros H; try discriminate H;
      eexists; split; try reflexivity; discriminate.
  - intros (c & -> & N). destruct c; congruence.
Qed.

Lemma call_construct (v : variant) (r : pyobj) (record : CloseApproach.t) :
  call (construct v r) record
  = compare (table_comparator v) (table_extract v record) r.
Proof. destruct v; reflexivity. Qed.

Lemma CompOpp_not_Gt (c : comparison) : c <> Lt -> CompOpp c <> Gt.
Proof. destruct c; simpl; congruence. Qed.

Lemma CompOpp_not_Lt (c : comparison) : c <> Gt -> CompOpp c <> Lt.
Proof. destruct c; simpl; congruence. Qed.

(** When a lower and an upper bound on one attribute are both satisfied
    by some record, the lower reference is at most the upper one: bounds
    that cross select nothing. *)
Theorem crossed_bounds_select_nothing
    (lower upper : variant) (lo hi : pyobj) (record : CloseApproach.t) :
  bounds lower upper = true ->
  call (construct lower lo) record = Ok true ->
  call (construct upper hi) record = Ok true ->
  operator.le lo hi = Ok true.
Proof.
  intros B Hlo Hhi. rewrite call_construct in Hlo, Hhi.
  assert (E : table_extract lower record = table_extract upper record
              /\ table_comparator lower = AtLeast /\ table_comparator upper = AtMost)
    by (destruct lower, upper; try discriminate B; repeat split).
  destruct E as (E & Cl & Cu). rewrite Cl in Hlo. rewrite Cu, <- E in Hhi.
  simpl in Hlo, Hhi.
  apply ge_true in Hlo. apply le_true in Hhi.
  destruct Hlo as (c1 & O1 & N1), Hhi as (c2 & O2 & N2).
  apply order_antisym in O1.
  apply le_true.
  exact (order_trans _ _ _ _ _ O1 (CompOpp_not_Gt _ N1) O2 N2).
Qed.

Lemma crossed_bounds_witness :
  bounds MinDistance MaxDistance = true
  /\ call (construct MinDistance (VFloat f0_05)) sample = Ok true
  /\ call (construct MaxDistance (VInt 1)) sample = Ok true
  /\ operator.le (VFloat f0_05) (VInt 1) = Ok true.
Proof.
  repeat (split; [reflexivity |]).
  apply (crossed_bounds_select_nothing MinDistance MaxDistance
           (VFloat f0_05) (VInt 1) sample); reflexivity.
Defined.

(** Loosening a bound keeps every record that satisfied it. *)
Theorem looser_bound_keeps_records
    (v : variant) (r r' : pyobj) (record : CloseApproach.t) :
  call (construct v r) record = Ok true ->
  (table_comparator v = AtLeast -> operator.le r' r = Ok true ->
   call (construct v r') record = Ok true)
  /\ (table_comparator v = AtMost -> operator.le r r' = Ok true ->
      call (construct v r') record = Ok true).
Proof.
  intros H. rewrite !call_construct in *.
  split; intros C L; rewrite C in *; simpl in *.
  - apply ge_true in H. apply le_true in L. apply ge_true.
    destruct H as (c1 & O1 & N1), L as (c2 & O2 & N2).
    apply order_antisym in O1.
    destruct (order_trans _ _ _ _ _ O2 N2 O1 (CompOpp_not_Gt _ N1)) as (c3 & O3 & N3).
    apply order_antisym in O3. eexists. split; [exact O3 |].
    now apply CompOpp_not_Lt.
  - apply le_true in H. apply le_true in L. apply le_true.
    destruct H as (c1 & O1 & N1), L as (c2 & O2 & N2).
    exact (order_trans _ _ _ _ _ O1 N1 O2 N2).
Qed.

Lemma looser_bound_witness :
  call (construct MaxVelocity (VInt 5)) sample = Ok true
  /\ operator.le (VInt 5) (VInt 6) = Ok true
  /\ call (construct MaxVelocity (VInt 6)) sample = Ok true.
Proof.
  repeat (split; [reflexivity |]).
  apply (proj2 (looser_bound_keeps_records MaxVelocity (VInt 5) (VInt 6) sample
                  eq_refl));
    reflexivity.
Defined.

(** ** What filters raise *)

Lemma in_slot (requested : pyobj -> bool) (make : pyobj -> filter) (v : pyobj) (f : filter) :
  In f (slot requested make v) <-> requested v = true /\ f = make v.
Proof.
  unfold slot. destruct (requested v); simpl; intuition congruence.
Qed.

(** Every filter of the builder is an instance of one of the ten
    subclasses, built from the option of its criterion. *)
Lemma in_create_filters
    (date start_date end_date distance_min distance_max
     velocity_min velocity_max diameter_min diameter_max hazardous : pyobj)
    (f : filter) :
  In f (create_filters date start_date end_date distance_min distance_max
          velocity_min velocity_max diameter_min diameter_max hazardous) ->
  exists (v : variant) (r : pyobj),
    f = construct v r
    /\ r = match v with
           | Date => date | StartDate => start_date | EndDate => end_date
           | MinDistance => distance_min | MaxDistance => distance_max
           | MinVelocity => velocity_min | MaxVelocity => velocity_max
           | MinDiameter => diameter_min | MaxDiameter => diameter_max
           | Hazardous => hazardous
           end.
Proof.
  rewrite create_filters_slots. unfold expected_filters.
  rewrite !in_app_iff, !in_slot.
  intros [H | [H | [H | [H | [H | [H | [H | [H | [H | H]]]]]]]]];
    destruct H as [_ ->].
  - now exists Date, date.
  - now exists StartDate, start_date.
  - now exists EndDate, end_date.
  - now exists MinDistance, distance_min.
  - now exists MaxDistance, distance_max.
  - now exists MinVelocity, velocity_min.
  - now exists MaxVelocity, velocity_max.
  - now exists MinDiameter, diameter_min.
  - now exists MaxDiameter, diameter_max.
  - now exists Hazardous, hazardous.
Qed.

(** What a comparator can raise. *)
Lemma compare_raise (c : comparator) (x y : pyobj) (e : exn) :
  compare c x y = Raise e <->
  e = TypeError /\ c <> Equals /\ order x y = Incomparable.
Proof.
  destruct c; simpl;
    [unfold operator.eq | unfold operator.ge | unfold operator.le].
  - split; [| intros (_ & N & _); congruence].
    destruct x, y; try discriminate;
      match goal with |- context [order ?a ?b] => destruct (order a b) as [| | []] end;
      discriminate.
  - destruct (order x y) as [| | []]; split; try discriminate;
      try (intros (_ & _ & H); discriminate H).
    + intros H. inversion H. repeat split; congruence.
    + intros (-> & _). reflexivity.
  - destruct (order x y) as [| | []]; split; try discriminate;
      try (intros (_ & _ & H); discriminate H).
    + intros H. inversion H. repeat split; congruence.
    + intros (-> & _). reflexivity.
Qed.

(** A filter of one of the ten subclasses raises nothing but [TypeError],
    and raises it exactly when it orders (with [>=] or [<=]) two objects
    of unrelated types; the equality filters never raise. *)
Theorem call_raises_only_TypeError (v : variant) (r : pyobj) (record : CloseApproach.t) :
  (forall e : exn, call (construct v r) record = Raise e -> e = TypeError)
  /\ (call (construct v r) record = Raise TypeError
      <-> table_comparator v <> Equals
          /\ order (table_extract v record) r = Incomparable).
Proof.
  rewrite call_construct. split.
  - intros e H. apply compare_raise in H. tauto.
  - rewrite compare_raise. tauto.
Qed.

(** No filter that the builder returns is of the base class, and none
    raises [UnsupportedCriterionError], whatever the options and the
    record. *)
Theorem create_filters_supported
    (date start_date end_date distance_min distance_max
     velocity_min velocity_max diameter_min diameter_max hazardous : pyobj)
    (f : filter) (record : CloseApproach.t) :
  In f (create_filters date start_date end_date distance_min distance_max
          velocity_min velocity_max diameter_min diameter_max hazardous) ->
  cls f <> AttributeFilter_cls
  /\ call f record <> Raise UnsupportedCriterionError.
Proof.
  intros H. apply in_create_filters in H. destruct H as (v & r & -> & _).
  split; [destruct v; discriminate |].
  rewrite call_construct. intros E. apply compare_raise in E.
  destruct E as (E & _). discriminate E.
Qed.

Lemma create_filters_supported_witness :
  In (MinDistanceFilter (VFloat f0_05))
     (create_filters VNone VNone VNone (VFloat f0_05) VNone VNone VNone VNone VNone VNone)
  /\ call (MinDistanceFilter (VFloat f0_05)) sample <> Raise UnsupportedCriterionError.
Proof.
  split; [left; reflexivity |].
  apply (create_filters_supported VNone VNone VNone (VFloat f0_05) VNone
           VNone VNone VNone VNone VNone (MinDistanceFilter (VFloat f0_05)) sample).
  left; reflexivity.
Defined.

(** With options of the documented types (a date or nothing for the three
    date options, a number or nothing for the six bounds, anything for the
    hazard flag) every filter of the builder returns a boolean on every
    record. *)
Theorem create_filters_typed_total
    (date start_date end_date distance_min distance_max
     velocity_min velocity_max diameter_min diameter_max hazardous : pyobj)
    (f : filter) (record : CloseApproach.t) :
  date_option date = true -> date_option start_date = true ->
  date_option end_date = true ->
  number_option distance_min = true -> number_option distance_max = true ->
  number_option velocity_min = true -> number_option velocity_max = true ->
  number_option diameter_min = true -> number_option diameter_max = true ->
  In f (create_filters date start_date end_date distance_min distance_max
          velocity_min velocity_max diameter_min diameter_max hazardous) ->
  exists b : bool, call f record = Ok b.
Proof.
  intros T1 T2 T3 T4 T5 T6 T7 T8 T9 H.
  rewrite create_filters_slots in H. unfold expected_filters in H.
  rewrite !in_app_iff, !in_slot in H.
  assert (K : forall (v : variant) (r : pyobj),
            truthy r = true ->
            (if numeric v then number_option r else date_option r) = true ->
            table_comparator v <> Equals ->
            exists b, call (construct v r) record = Ok b).
  { intros v r Tr Ty Ne. rewrite call_construct.
    destruct (compare (table_comparator v) (table_extract v record) r) as [b | e] eqn:E;
      [now exists b |].
    apply compare_raise in E. destruct E as (_ & _ & E). exfalso.
    destruct v; simpl in *; try congruence;
      destruct r; simpl in *; try discriminate;
      unfold order in E; cbn [as_number] in E;
      match type of E with
      | match ?n with _ => _ end = _ => destruct n; discriminate
      end. }
  assert (Q : forall (v : variant) (r : pyobj),
            table_comparator v = Equals ->
            exists b, call (construct v r) record = Ok b).
  { intros v r C. rewrite call_construct.
    destruct (compare (table_comparator v) (table_extract v record) r) as [b | e] eqn:E;
      [now exists b |].
    apply compare_raise in E. tauto. }
  destruct H as [H | [H | [H | [H | [H | [H | [H | [H | [H | H]]]]]]]]];
    destruct H as [Tr ->].
  - apply (Q Date); reflexivity.
  - apply (K StartDate); [assumption | assumption | discriminate].
  - apply (K EndDate); [assumption | assumption | discriminate].
  - apply (K MinDistance); [assumption | assumption | discriminate].
  - apply (K MaxDistance); [assumption | assumption | discriminate].
  - apply (K MinVelocity); [assumption | assumption | discriminate].
  - apply (K MaxVelocity); [assumption | assumption | discriminate].
  - apply (K MinDiameter); [assumption | assumption | discriminate].
  - apply (K MaxDiameter); [assumption | assumption | discriminate].
  - apply (Q Hazardous); reflexivity.
Qed.

Lemma create_filters_typed_total_witness :
  exists b : bool,
    call (StartDateFilter (VDate (mkDate 2020 1 1))) sample = Ok b.
Proof.
  apply (create_filters_typed_total
           VNone (VDate (mkDate 2020 1 1)) VNone VNone (VFloat f0_3)
           VNone VNone VNone VNone (VBool true)
           (StartDateFilter (VDate (mkDate 2020 1 1))) sample);
    try reflexivity.
  left; reflexivity.
Defined.

(** An unknown diameter, held as a NaN, fails every diameter filter whose
    reference is a number: such a record is dropped by a lower and by an
    upper bound alike. *)
Theorem nan_diameter_rejected (r : pyobj) (record : CloseApproach.t) :
  NearEarthObject.diameter (CloseApproach.neo record) = S754_nan ->
  as_number r <> None ->
  call (MinDiameterFilter r) record = Ok false
  /\ call (MaxDiameterFilter r) record = Ok false.
Proof.
  intros D N. unfold call. simpl. rewrite D.
  unfold operator.ge, operator.le, order.
  destruct r; simpl in *; try congruence; split; reflexivity.
Qed.

Lemma nan_diameter_rejected_witness :
  call (MinDiameterFilter (VInt 0)) unsized = Ok false
  /\ call (MaxDiameterFilter (VInt 0)) unsized = Ok false.
Proof.
  apply (nan_diameter_rejected (VInt 0) unsized); [reflexivity | discriminate].
Defined.

(** A NaN given as a bound is truthy, so the builder makes a filter of
    it, and that filter rejects every record. *)
Theorem nan_bound_rejects_all :
  truthy (VFloat S754_nan) = true
  /\ create_filters VNone VNone VNone (VFloat S754_nan) VNone VNone VNone VNone VNone VNone
     = [MinDistanceFilter (VFloat S754_nan)]
  /\ (forall (v : variant) (record : CloseApproach.t),
        numeric v = true ->
        call (construct v (VFloat S754_nan)) record = Ok false).
Proof.
  split; [reflexivity |]. split; [reflexivity |].
  intros v record N. rewrite call_construct.
  apply compare_unordered.
  destruct v; try discriminate N; simpl; unfold order; simpl;
    match goal with |- context [number_of_float ?f] => destruct f as [| [] | |[]] end;
    reflexivity.
Qed.

(** The exact-date filter is the conjunction of the two range filters
    with the same date. *)
Theorem date_is_start_and_end (d : date) (record : CloseApproach.t) :
  exists b1 b2 : bool,
    call (StartDateFilter (VDate d)) record = Ok b1
    /\ call (EndDateFilter (VDate d)) record = Ok b2
    /\ call (DateFilter (VDate d)) record = Ok (b1 && b2).
Proof.
  unfold call. simpl. unfold operator.ge, operator.le, operator.eq. simpl.
  destruct (date_compare (dt_date (CloseApproach.time record)) d);
    do 2 eexists; repeat split.
Qed.

Lemma order_positive_zero (zero : pyobj) (m : positive) (e : Z) :
  is_zero zero = true ->
  order (VFloat (S754_finite false m e)) zero = Ordered Gt.
Proof.
  intros Hz.
  assert (G : (Z.pos m * 2 ^ (e - Z.min e 0) ?= 0 * 2 ^ (0 - Z.min e 0)) = Gt).
  { apply Z.compare_gt_iff. rewrite Z.mul_0_l.
    apply Z.mul_pos_pos; [lia | apply Z.pow_pos_nonneg; lia]. }
  destruct zero as [| b | z | f | d]; try discriminate Hz.
  - destruct z; try discriminate Hz. unfold order. cbn [as_number number_of_float number_compare].
    rewrite G. reflexivity.
  - destruct f; try discriminate Hz. unfold order. cbn [as_number number_of_float number_compare].
    rewrite G. reflexivity.
Qed.

(** A bound of 0 is dropped by the builder; on a record whose attribute
    is positive the lower bound it names would hold, but the upper bound
    it names would not: a maximum of 0 asks for nothing and is still
    ignored. *)
Theorem zero_bound_dropped
    (v : variant) (zero : pyobj) (record : CloseApproach.t) (m : positive) (e : Z) :
  is_zero zero = true ->
  table_extract v record = VFloat (S754_finite false m e) ->
  create_filters VNone VNone VNone zero zero zero zero zero zero VNone = []
  /\ (table_comparator v = AtLeast -> call (construct v zero) record = Ok true)
  /\ (table_comparator v = AtMost -> call (construct v zero) record = Ok false).
Proof.
  intros Hz Hx. split.
  - rewrite create_filters_slots. unfold expected_filters, slot.
    replace (truthy zero) with false; [reflexivity |].
    destruct zero as [| b | [] | [] | d]; try discriminate Hz; reflexivity.
  - rewrite call_construct, Hx.
    pose proof (order_positive_zero zero m e Hz) as O.
    split; intros C; rewrite C; simpl;
      [unfold operator.ge | unfold operator.le]; rewrite O; reflexivity.
Qed.

Lemma zero_bound_dropped_witness :
  create_filters VNone VNone VNone (VInt 0) (VInt 0) (VInt 0) (VInt 0) (VInt 0) (VInt 0)
    VNone = []
  /\ call (construct MaxDistance (VInt 0)) sample = Ok false.
Proof.
  destruct (zero_bound_dropped MaxDistance (VInt 0) sample 5404319552844595 (-54)
              eq_refl eq_refl) as (S0 & _ & M).
  split; [exact S0 | exact (M eq_refl)].
Defined.

(** ** More on the limiter *)

Section LimiterMore.

Context {A : Type}.

(** Reading part of an [islice] object: the items are those of the source,
    and the source is left where the reads leave it, up to the bound. *)
Lemma take_islice_at (k : nat) :
  forall (it : iterator A) (stop cnt : Z) (k' : nat),
    k' = Nat.min k (Z.to_nat (stop - cnt)) ->
    exists held : bool,
      take k (islice_at it stop cnt true)
      = (fst (take k' it),
         islice_at (snd (take k' it)) stop
           (cnt + Z.of_nat (List.length (fst (take k' it)))) held).
Proof.
  induction k as [| k IH]; intros it stop cnt k' Hk'.
  - exists true. subst k'. cbn. rewrite Z.add_0_r. reflexivity.
  - destruct (Z.le_gt_cases stop cnt) as [Hle | Hlt].
    + exists false.
      assert (E : k' = O) by lia. rewrite E. cbn [take].
      rewrite next_islice_stop by exact Hle. cbn. rewrite Z.add_0_r. reflexivity.
    + assert (E : k' = S (Nat.min k (Z.to_nat (stop - (cnt + 1))))) by lia.
      rewrite E. clear E Hk' k'.
      destruct (next it) as [[x |] it'] eqn:N.
      * destruct (IH it' stop (cnt + 1) _ eq_refl) as [held H].
        exists held.
        rewrite (take_S_some _ _ _ x (next_islice_some it it' stop cnt x Hlt N)).
        rewrite H. rewrite (take_S_some _ it it' x N).
        cbn [fst snd List.length]. do 2 f_equal. lia.
      * exists false.
        rewrite (take_S_none _ _ _ (next_islice_none it it' stop cnt Hlt N)).
        rewrite (take_S_none _ it it' N). cbn. rewrite Z.add_0_r. reflexivity.
Qed.

Lemma take_length (k : nat) :
  forall it : iterator A, (List.length (fst (take k it)) <= k)%nat.
Proof.
  induction k as [| k IH]; intros it; [cbn; lia |].
  destruct (next it) as [[x |] it'] eqn:N.
  - rewrite (take_S_some _ it it' x N). cbn. specialize (IH it'). lia.
  - rewrite (take_S_none _ it it' N). cbn. lia.
Qed.

Lemma next_never_stops (it : iterator A) :
  never_stops it ->
  exists (x : A) (it' : iterator A), next it = (Some x, it') /\ never_stops it'.
Proof.
  intros H. destruct it as [St s f]. unfold next. cbn.
  pose proof (H s) as Hs. cbn in Hs.
  destruct (f s) as [[x |] s'] eqn:E; cbn in Hs; [| congruence].
  exists x, (mkIterator St s' f). split; [reflexivity |].
  intros s0. exact (H s0).
Qed.

Lemma take_never_stops (k : nat) :
  forall it : iterator A,
    never_stops it -> List.length (fst (take k it)) = k.
Proof.
  induction k as [| k IH]; intros it H; [reflexivity |].
  destruct (next_never_stops it H) as (x & it' & N & H').
  rewrite (take_S_some _ it it' x N). cbn. now rewrite IH.
Qed.

End LimiterMore.

(** The only exception of [limit] is the [ValueError] of [islice], and it
    is raised exactly for an [n] that is positive and above
    [sys.maxsize], whatever the source. *)
Theorem limit_raises_iff
    (maxsize : Z) (A : Type) (source : iterator A) (n : option Z) (e : exn) :
  limit maxsize source n = Raise e
  <-> e = ValueError /\ exists k : Z, n = Some k /\ 0 < k /\ maxsize < k.
Proof.
  split.
  - destruct n as [k |]; [| discriminate].
    destruct (Z.le_gt_cases k 0) as [Hle | Hgt].
    + rewrite limit_not_positive by exact Hle. discriminate.
    + destruct (Z.le_gt_cases k maxsize) as [Hmax | Hmax].
      * rewrite limit_islice by lia. discriminate.
      * rewrite limit_too_large by lia. intros H. inversion H.
        split; [reflexivity |]. exists k. repeat split; lia.
  - intros (-> & k & -> & Hk & Hmax). apply limit_too_large; assumption.
Qed.

(** Reading only part of a limited stream: for [0 < n <= sys.maxsize], a
    consumer that reads at most [k <= n] items and stops at the first
    [StopIteration] gets from [limit(source, n)] what it gets from the
    source itself, and leaves the source where it would have left it;
    nothing is read ahead. *)
Theorem limit_reads_on_demand
    (maxsize : Z) (A : Type) (source : iterator A) (n : Z) (k : nat) :
  0 < n -> n <= maxsize -> (k <= Z.to_nat n)%nat ->
  exists (limited : iterator A) (held : bool),
    limit maxsize source (Some n) = Ok limited
    /\ take k limited
       = (fst (take k source),
          islice_at (snd (take k source)) n
            (Z.of_nat (List.length (fst (take k source)))) held).
Proof.
  intros Hn Hmax Hk.
  destruct (take_islice_at k source n 0 k ltac:(lia)) as [held H].
  eexists. exists held. split; [apply limit_islice; assumption |].
  rewrite H. reflexivity.
Qed.

Lemma limit_reads_on_demand_witness :
  exists (limited : iterator Z) (held : bool),
    limit maxsize64 (count 0) (Some 5) = Ok limited
    /\ take 2 limited = ([0; 1], islice_at (count 2) 5 2 held).
Proof.
  apply (limit_reads_on_demand maxsize64 Z (count 0) 5 2);
    [lia | apply Z.leb_le; reflexivity | simpl; lia].
Defined.

(** Limiting twice is limiting by the smaller bound: for [n] and [m] from
    1 to [sys.maxsize], the items of [limit(limit(source, n), m)] are
    those of [limit(source, min(n, m))], and the source is read no
    further. *)
Theorem limit_limit
    (maxsize : Z) (A : Type) (source : iterator A) (n m : Z) (fuel : nat) :
  0 < n -> n <= maxsize -> 0 < m -> m <= maxsize -> (Z.to_nat m < fuel)%nat ->
  let k := Z.to_nat (Z.min n m) in
  let items := fst (take k source) in
  let cnt := Z.of_nat (List.length items) in
  (exists (once twice : iterator A) (held : bool),
     limit maxsize source (Some n) = Ok once
     /\ limit maxsize once (Some m) = Ok twice
     /\ drain fuel twice
        = Some (items,
                islice_at (islice_at (snd (take k source)) n cnt held) m cnt false))
  /\ (exists limited : iterator A,
        limit maxsize source (Some (Z.min n m)) = Ok limited
        /\ drain fuel limited
           = Some (items, islice_at (snd (take k source)) (Z.min n m) cnt false)).
Proof.
  intros Hn Hnmax Hm Hmmax Hfuel k items cnt. split.
  - destruct (take_islice_at (Z.to_nat m) source n 0 k ltac:(subst k; lia)) as [held H].
    do 2 eexists. exists held.
    split; [apply limit_islice; assumption |].
    split; [apply limit_islice; assumption |].
    rewrite drain_islice by exact Hfuel.
    rewrite H. cbn [fst snd]. rewrite !Z.add_0_l. reflexivity.
  - eexists. split; [apply limit_islice; lia |].
    rewrite drain_islice by lia. reflexivity.
Qed.

Lemma limit_limit_witness :
  (exists (once twice : iterator Z) (held : bool),
     limit maxsize64 (count 0) (Some 2) = Ok once
     /\ limit maxsize64 once (Some 3) = Ok twice
     /\ drain 4 twice
        = Some ([0; 1], islice_at (islice_at (count 2) 2 2 held) 3 2 false))
  /\ (exists limited : iterator Z,
        limit maxsize64 (count 0) (Some 2) = Ok limited
        /\ drain 4 limited = Some ([0; 1], islice_at (count 2) 2 2 false)).
Proof.
  apply (limit_limit maxsize64 Z (count 0) 2 3 4);
    try lia; try (apply Z.leb_le; reflexivity); simpl; lia.
Defined.

(** For [0 < n <= sys.maxsize], a limited stream has at most [n] items
    whatever the source, and exactly [n] when the source never stops;
    reading it to its end then takes no more than [n + 1] calls. *)
Theorem limit_length
    (maxsize : Z) (A : Type) (source : iterator A) (n : Z) (fuel : nat) :
  0 < n -> n <= maxsize -> (Z.to_nat n < fuel)%nat ->
  exists (limited : iterator A) (items : list A) (rest : iterator A),
    limit maxsize source (Some n) = Ok limited
    /\ drain fuel limited = Some (items, rest)
    /\ (List.length items <= Z.to_nat n)%nat
    /\ (never_stops source -> List.length items = Z.to_nat n).
Proof.
  intros Hn Hmax Hfuel.
  do 3 eexists. split; [apply limit_islice; assumption |].
  split; [apply drain_islice; exact Hfuel |]. split.
  - apply take_length.
  - intros H. now apply take_never_stops.
Qed.

Lemma limit_length_witness :
  never_stops (count 0)
  /\ exists (limited : iterator Z) (items : list Z) (rest : iterator Z),
       limit maxsize64 (count 0) (Some 3) = Ok limited
       /\ drain 4 limited = Some (items, rest)
       /\ (List.length items <= 3)%nat
       /\ (never_stops (count 0) -> List.length items = 3%nat).
Proof.
  split; [intros s; discriminate |].
  apply (limit_length maxsize64 Z (count 0) 3 4);
    [lia | apply Z.leb_le; reflexivity | simpl; lia].
Defined.

(** ** More on the writers *)

Section WriterMore.

Variable datetime_to_str : datetime -> string.
Variable float_repr : spec_float -> string.

Lemma concat_empty_app (l1 l2 : list string) :
  String.concat "" (l1 ++ l2)
  = (String.concat "" l1 ++ String.concat "" l2)%string.
Proof.
  induction l1 as [| x l1 IH]; [reflexivity |].
  change ((x :: l1) ++ l2) with (x :: (l1 ++ l2)).
  rewrite !concat_empty_cons, IH, append_assoc. reflexivity.
Qed.

(** The text of [write_to_csv]: the header line, then the line of each
    record. *)
Lemma write_to_csv_lines (results : list CloseApproach.t) :
  write_to_csv datetime_to_str float_repr results
  = (header_line
     ++ String.concat ""
          (map (fun record => row_line (record_fields datetime_to_str float_repr record))
               results))%string.
Proof.
  unfold write_to_csv. rewrite writerows_lines.
  f_equal. rewrite map_map. f_equal. apply map_ext. intros record.
  unfold record_fields. cbn [map cell_str]. rewrite name_or_empty_spec.
  reflexivity.
Qed.

Lemma count_char_app (c : ascii) (a b : string) :
  count_char c (a ++ b) = (count_char c a + count_char c b)%nat.
Proof. induction a as [| x a IH]; simpl; [reflexivity | rewrite IH; lia]. Qed.

Lemma count_LF_double_quotes (s : string) :
  count_char LF (double_quotes s) = count_char LF s.
Proof.
  induction s as [| x s IH]; [reflexivity |].
  simpl. destruct (Ascii.eqb_spec x quotechar) as [-> | N]; simpl; rewrite IH; reflexivity.
Qed.

Lemma count_LF_csv_field (s : string) :
  count_char LF (csv_field s) = count_char LF s.
Proof.
  unfold csv_field. destruct (has_special s); [| reflexivity].
  simpl. rewrite count_char_app, count_LF_double_quotes. simpl. lia.
Qed.

Lemma count_LF_row_line (fields : list string) :
  Forall (fun s => count_char LF s = O) fields ->
  count_char LF (row_line fields) = 1%nat.
Proof.
  intros H. unfold row_line. rewrite count_char_app.
  assert (E : count_char LF (String.concat "," (map csv_field fields)) = O).
  { induction H as [| s rest Hs Hrest IH]; [reflexivity |].
    cbn [map String.concat]. destruct (map csv_field rest) as [| y ys] eqn:M.
    - now rewrite count_LF_csv_field.
    - rewrite !count_char_app, count_LF_csv_field, Hs, IH. reflexivity. }
  rewrite E. reflexivity.
Qed.

End WriterMore.

(** Writing a longer stream extends the text of a shorter one: the text
    for [xs ++ ys] is the text for [xs] followed by the lines of [ys], and
    with no record at all the text is the header line alone. *)
Theorem write_to_csv_app
    (datetime_to_str : datetime -> string) (float_repr : spec_float -> string)
    (xs ys : list CloseApproach.t) :
  write_to_csv datetime_to_str float_repr (xs ++ ys)
  = (write_to_csv datetime_to_str float_repr xs
     ++ String.concat ""
          (map (fun record => row_line (record_fields datetime_to_str float_repr record))
               ys))%string
  /\ write_to_csv datetime_to_str float_repr [] = header_line.
Proof.
  split; [| reflexivity].
  rewrite !write_to_csv_lines, map_app, concat_empty_app, append_assoc.
  reflexivity.
Qed.

(** When no field text holds a line feed, the text of [write_to_csv] has
    one line feed per record and one for the header. *)
Theorem write_to_csv_line_count
    (datetime_to_str : datetime -> string) (float_repr : spec_float -> string)
    (results : list CloseApproach.t) :
  Forall (fun record =>
            Forall (fun s => count_char LF s = O)
                   (record_fields datetime_to_str float_repr record)) results ->
  count_char LF (write_to_csv datetime_to_str float_repr results)
  = S (List.length results).
Proof.
  intros H. rewrite write_to_csv_lines, count_char_app.
  change (count_char LF header_line) with 1%nat.
  assert (E : count_char LF
                (String.concat ""
                   (map (fun record =>
                           row_line (record_fields datetime_to_str float_repr record))
                        results))
              = List.length results).
  { induction H as [| record rest Hr Hrest IH]; [reflexivity |].
    cbn [map List.length]. rewrite concat_empty_cons, count_char_app, IH.
    rewrite count_LF_row_line by exact Hr. reflexivity. }
  rewrite E. reflexivity.
Qed.

Lemma write_to_csv_line_count_witness :
  count_char LF (write_to_csv minutes_str sample_repr [sample; sample]) = 3%nat.
Proof.
  apply (write_to_csv_line_count minutes_str sample_repr [sample; sample]).
  repeat constructor.
Defined.

(** A missing name and an empty name are written alike: neither writer
    tells [None] from the empty string. *)
Theorem writers_name_missing_or_empty
    (datetime_to_str : datetime -> string) (float_repr : spec_float -> string)
    (results : list CloseApproach.t) :
  write_to_csv datetime_to_str float_repr (map (with_name None) results)
  = write_to_csv datetime_to_str float_repr (map (with_name (Some "")) results)
  /\ write_to_json datetime_to_str (map (with_name None) results)
     = write_to_json datetime_to_str (map (with_name (Some "")) results).
Proof.
  split.
  - rewrite !write_to_csv_lines, !map_map. reflexivity.
  - unfold write_to_json. rewrite !map_map. reflexivity.
Qed.
